(** * streamlit-cadcad: a shallow embedding of [main.py]

    The script fetches Compound markets over GraphQL, reshapes them with
    pandas, builds a cadCAD configuration and registers it with
    [Experiment.append_configs]; the simulation and the Streamlit page
    follow.  Python values are modelled by [pyval], Python floats by the
    kernel's binary64 floats, and exceptions by the error monad [res].
    pandas and cadCAD are dependencies: each operation the script calls is
    modelled from that library's source, with a note.  The policy and
    state-update functions (lines 67-104) are modelled as cadCAD's engine
    calls them. *)

From Stdlib Require Import List String Ascii ZArith Lia Bool PrimFloat.
From Stdlib Require Import FloatOps SpecFloat FloatAxioms.
Import ListNotations.
Open Scope string_scope.
Set Warnings "-register-all,-inexact-float".

(* ------------------------------------------------------------------ *)
(** ** Python values and exceptions *)

(** Dictionary keys: the script only uses string and int keys. *)
Inductive key : Type :=
| KStr (s : string)
| KInt (z : Z).

(** The Python objects the script manipulates: JSON documents decoded by
    [json.loads], DataFrame cells and the cadCAD state and parameters.
    A string is the list of its UTF-8 bytes. *)
Inductive pyval : Type :=
| PNone
| PBool (b : bool)
| PInt (z : Z)
| PFloat (f : float)
| PStr (s : string)
| PList (l : list pyval)
| PDict (kv : list (key * pyval)).

(** [Unmodelled what]: the library computes something this embedding does
    not follow (a numpy value, an index built from dict keys, ...). *)
Inductive exn : Type :=
| ConnectionError
| JSONDecodeError
| KeyError (k : key)
| IndexError
| TypeError (msg : string)
| AttributeError (name : string)
| ValueError (msg : string)
| ZeroDivisionError
| OverflowError (msg : string)
| Unmodelled (what : string).

(** A computation either returns a value or raises an exception. *)
Inductive res (A : Type) : Type :=
| Ok (a : A)
| Err (e : exn).
Arguments Ok {A} a.
Arguments Err {A} e.

Definition bind {A B : Type} (m : res A) (k : A -> res B) : res B :=
  match m with
  | Ok a => k a
  | Err e => Err e
  end.

Notation "x <- m ;; k" := (bind m (fun x => k))
  (at level 61, m at next level, right associativity).

Definition key_eqb (a b : key) : bool :=
  match a, b with
  | KStr s, KStr t => String.eqb s t
  | KInt z, KInt w => Z.eqb z w
  | _, _ => false
  end.

Fixpoint assoc {A : Type} (k : key) (kv : list (key * A)) : option A :=
  match kv with
  | [] => None
  | (k', v) :: rest => if key_eqb k k' then Some v else assoc k rest
  end.

(** [seq[z]] for a list or a string: negative indices count from the end. *)
Definition py_index {A : Type} (l : list A) (z : Z) : res A :=
  let i := if Z.ltb z 0 then (Z.of_nat (List.length l) + z)%Z else z in
  if Z.ltb i 0 then Err IndexError
  else match nth_error l (Z.to_nat i) with
       | Some x => Ok x
       | None => Err IndexError
       end.

(** [d[k]]: dictionary lookup, list and string indexing (a string is
    indexed by byte, which is its character for ASCII text), and the
    [TypeError] of any other subscript. *)
Definition getitem (v : pyval) (k : key) : res pyval :=
  match v, k with
  | PDict kv, _ =>
      match assoc k kv with
      | Some x => Ok x
      | None => Err (KeyError k)
      end
  | PList l, KInt z => py_index l z
  | PList _, KStr _ => Err (TypeError "list indices must be integers or slices, not str")
  | PStr s, KInt z =>
      c <- py_index (list_ascii_of_string s) z ;; Ok (PStr (String c EmptyString))
  | PStr _, KStr _ => Err (TypeError "string indices must be integers")
  | _, _ => Err (TypeError "object is not subscriptable")
  end.

(* ------------------------------------------------------------------ *)
(** ** Python arithmetic *)

(** The binary64 float nearest to an int (ties to even). *)
Definition float_of_Z (z : Z) : float :=
  SF2Prim (binary_normalize FloatOps.prec FloatOps.emax z 0 false).

(** [float(n)] for an int: an int whose nearest float would be infinite
    (magnitude at least 2^1024 - 2^970) raises [OverflowError]. *)
Definition int_to_float (z : Z) : res float :=
  if Z.leb (2 ^ 1024 - 2 ^ 970) (Z.abs z)
  then Err (OverflowError "int too large to convert to float")
  else Ok (float_of_Z z).

Definition bool_to_Z (b : bool) : Z := if b then 1%Z else 0%Z.

Definition is_num (v : pyval) : bool :=
  match v with PInt _ | PFloat _ | PBool _ => true | _ => false end.

(** The int value of an int operand ([bool] is an int subtype). *)
Definition int_like (v : pyval) : option Z :=
  match v with
  | PInt z => Some z
  | PBool b => Some (bool_to_Z b)
  | _ => None
  end.

(** A numeric operand converted to float, as [float.__truediv__] and
    [float.__mul__] convert it. *)
Definition to_float (v : pyval) : res float :=
  match v with
  | PBool b => Ok (float_of_Z (bool_to_Z b))
  | PInt z => int_to_float z
  | PFloat f => Ok f
  | _ => Err (TypeError "unsupported operand type")
  end.

(** [a / b] on two ints: CPython's [long_true_divide].  Both operands
    below 2^53 in magnitude: the quotient of their exact floats.
    Otherwise the correctly rounded quotient, [OverflowError] when it is
    too large for a float.  A zero numerator gives a zero of the sign of
    the quotient (CPython tests it first; the first case gives the same
    zero). *)
Definition int_true_div (a b : Z) : res float :=
  if Z.eqb b 0 then Err ZeroDivisionError
  else if Z.ltb (Z.abs a) (2 ^ 53) && Z.ltb (Z.abs b) (2 ^ 53)
  then Ok (float_of_Z a / float_of_Z b)%float
  else if Z.eqb a 0 then Ok (if Z.ltb b 0 then PrimFloat.opp 0%float else 0%float)
  else
    let '(q, e, loc) :=
      SFdiv_core_binary FloatOps.prec FloatOps.emax (Z.abs a) 0 (Z.abs b) 0 in
    match binary_round_aux FloatOps.prec FloatOps.emax
            (xorb (Z.ltb a 0) (Z.ltb b 0)) q e loc with
    | S754_infinity _ => Err (OverflowError "integer division result too large for a float")
    | r => Ok (SF2Prim r)
    end.

(** [a / b]: two ints divide as above; otherwise both operands are
    converted to float, and a zero divisor (also [-0.0]) raises. *)
Definition py_truediv (a b : pyval) : res pyval :=
  if negb (is_num a && is_num b) then Err (TypeError "unsupported operand type(s) for /")
  else match int_like a, int_like b with
  | Some x, Some y => q <- int_true_div x y ;; Ok (PFloat q)
  | _, _ =>
      x <- to_float a ;;
      y <- to_float b ;;
      if PrimFloat.eqb y 0 then Err ZeroDivisionError else Ok (PFloat (x / y))
  end.

(** [a * b] on numbers: exact on ints, else on the converted floats.
    [p_rates] only multiplies its float quotient by [100]; other operand
    types (sequence repetition, ...) are outside this model. *)
Definition py_mul (a b : pyval) : res pyval :=
  if negb (is_num a && is_num b) then Err (Unmodelled "* on non-numbers")
  else match int_like a, int_like b with
  | Some x, Some y => Ok (PInt (x * y))
  | _, _ => x <- to_float a ;; y <- to_float b ;; Ok (PFloat (x * y))
  end.

(* ------------------------------------------------------------------ *)
(** ** pandas: [to_numeric]

    [pd.to_numeric(col)] on an object column runs
    [lib.maybe_convert_numeric]: each cell is classified, then the column
    gets one dtype.  Strings are parsed by [floatify], which calls the C
    parser [precise_xstrtod] (pandas' tokenizer.c) on the string's UTF-8
    bytes. *)

Fixpoint map_res {A B : Type} (f : A -> res B) (l : list A) : res (list B) :=
  match l with
  | [] => Ok []
  | x :: rest => y <- f x ;; ys <- map_res f rest ;; Ok (y :: ys)
  end.

Fixpoint digits_rev (fuel n : nat) (acc : string) : string :=
  match fuel with
  | O => acc
  | S f =>
      let acc' := String (Ascii.ascii_of_nat (48 + n mod 10)) acc in
      if Nat.ltb n 10 then acc' else digits_rev f (n / 10) acc'
  end.

(** [str(n)] *)
Definition show_nat (n : nat) : string := digits_rev (S n) n "".

(** The double quote character. *)
Definition dq : string := String (Ascii.ascii_of_nat 34) EmptyString.

Definition code (c : Ascii.ascii) : nat := Ascii.nat_of_ascii c.

(** [isspace_ascii]: space, \t, \n, \v, \f and \r. *)
Definition isspace_ascii (c : Ascii.ascii) : bool :=
  let n := code c in Nat.eqb n 32 || (Nat.leb 9 n && Nat.leb n 13).

Definition isdigit_ascii (c : Ascii.ascii) : bool :=
  let n := code c in Nat.leb 48 n && Nat.leb n 57.

Definition digit_of (c : Ascii.ascii) : Z := Z.of_nat (code c - 48).

Definition toupper_ascii (c : Ascii.ascii) : Ascii.ascii :=
  let n := code c in
  if Nat.leb 97 n && Nat.leb n 122 then Ascii.ascii_of_nat (n - 32) else c.

Definition tolower_ascii (c : Ascii.ascii) : Ascii.ascii :=
  let n := code c in
  if Nat.leb 65 n && Nat.leb n 90 then Ascii.ascii_of_nat (n + 32) else c.

(** The C string of a byte buffer: it ends at the first NUL. *)
Fixpoint c_string (l : list Ascii.ascii) : list Ascii.ascii :=
  match l with
  | c :: rest => if Nat.eqb (code c) 0 then [] else c :: c_string rest
  | [] => []
  end.

Fixpoint skip_spaces (l : list Ascii.ascii) : list Ascii.ascii :=
  match l with
  | c :: rest => if isspace_ascii c then skip_spaces rest else l
  | [] => []
  end.

Fixpoint skip_digits (l : list Ascii.ascii) : list Ascii.ascii :=
  match l with
  | c :: rest => if isdigit_ascii c then skip_digits rest else l
  | [] => []
  end.

Definition max_digits : nat := 17.

(** A C [int]: two's complement wrap-around on 32 bits. *)
Definition wrap_int (z : Z) : Z :=
  let m := Z.modulo z (2 ^ 32) in if Z.leb (2 ^ 31) m then (m - 2 ^ 32)%Z else m.

(** An optional sign: '-' sets [negative], '-' and '+' are consumed. *)
Definition xstrtod_sign (p : list Ascii.ascii) : bool * bool * list Ascii.ascii :=
  match p with
  | c :: rest =>
      if Ascii.eqb c "-"%char then (true, true, rest)
      else if Ascii.eqb c "+"%char then (false, true, rest)
      else (false, false, p)
  | [] => (false, false, [])
  end.

(** The digits before the decimal point: the first [max_digits] enter
    [number], each further one raises the exponent; after each digit one
    thousands separator [tsep] is skipped. *)
Fixpoint xstrtod_int (tsep : Ascii.ascii) (l : list Ascii.ascii) (number : float)
    (nd : nat) (ex : Z) : float * nat * Z * list Ascii.ascii :=
  match l with
  | c :: rest =>
      if isdigit_ascii c then
        let '(number', nd', ex') :=
          if Nat.ltb nd max_digits
          then ((number * 10 + float_of_Z (digit_of c))%float, S nd, ex)
          else (number, nd, (ex + 1)%Z) in
        match rest with
        | c' :: rest' =>
            if Ascii.eqb c' tsep then xstrtod_int tsep rest' number' nd' ex'
            else xstrtod_int tsep rest number' nd' ex'
        | [] => (number', nd', ex', [])
        end
      else (number, nd, ex, l)
  | [] => (number, nd, ex, [])
  end.

(** The digits after the decimal point, while fewer than [max_digits]
    digits were taken. *)
Fixpoint xstrtod_frac (l : list Ascii.ascii) (number : float) (nd ndec : nat)
  : float * nat * nat * list Ascii.ascii :=
  match l with
  | c :: rest =>
      if Nat.ltb nd max_digits && isdigit_ascii c
      then xstrtod_frac rest (number * 10 + float_of_Z (digit_of c))%float (S nd) (S ndec)
      else (number, nd, ndec, l)
  | [] => (number, nd, ndec, [])
  end.

(** The exponent digits, at most [max_digits] of them, in a C [int]. *)
Fixpoint xstrtod_exp (l : list Ascii.ascii) (n : Z) (cnt : nat)
  : Z * nat * list Ascii.ascii :=
  match l with
  | c :: rest =>
      if Nat.ltb cnt max_digits && isdigit_ascii c
      then xstrtod_exp rest (wrap_int (n * 10 + digit_of c)) (S cnt)
      else (n, cnt, l)
  | [] => (n, cnt, [])
  end.

(** The entry [e[k]] of the parser's table of powers of ten. *)
Definition pow10 (k : Z) : float := float_of_Z (10 ^ k).

(** [precise_xstrtod(str, &endptr, '.', 'e', tsep, skip_trailing, &error,
    &maybe_int)]: the value, [maybe_int], whether [error] was set, and
    the bytes from [endptr] on. *)
Definition precise_xstrtod (tsep : Ascii.ascii) (skip_trailing : bool)
    (str : list Ascii.ascii) : float * bool * bool * list Ascii.ascii :=
  let '(negative, _, p) := xstrtod_sign (skip_spaces str) in
  let '(number, nd, exponent, p) := xstrtod_int tsep p 0%float 0 0%Z in
  let '(number, nd, exponent, maybe_int, p) :=
    match p with
    | c :: rest =>
        if Ascii.eqb c "."%char then
          let '(number, nd, ndec, p) := xstrtod_frac rest number nd 0 in
          (number, nd, (exponent - Z.of_nat ndec)%Z, false,
           if Nat.leb max_digits nd then skip_digits p else p)
        else (number, nd, exponent, true, p)
    | [] => (number, nd, exponent, true, p)
    end in
  if Nat.eqb nd 0 then (0%float, maybe_int, true, p) else
  let number := if negative then PrimFloat.opp number else number in
  let '(exponent, maybe_int, p) :=
    match p with
    | c :: rest =>
        if Ascii.eqb (toupper_ascii c) "E"%char then
          let '(eneg, signed, r1) := xstrtod_sign rest in
          let '(n, cnt, r2) := xstrtod_exp r1 0%Z 0 in
          (wrap_int (if eneg then exponent - n else exponent + n)%Z, false,
           if Nat.eqb cnt 0 then (if signed then rest else c :: rest) else r2)
        else (exponent, maybe_int, p)
    | [] => (exponent, maybe_int, p)
    end in
  if Z.ltb 308 exponent then (infinity, maybe_int, true, p) else
  let number :=
    if Z.ltb 0 exponent then (number * pow10 exponent)%float
    else if Z.ltb exponent (-308) then
      (if Z.ltb exponent (-616) then 0%float
       else (number / pow10 (-308 - exponent) / pow10 308)%float)
    else (number / pow10 (- exponent))%float in
  let error := PrimFloat.eqb number infinity || PrimFloat.eqb number neg_infinity in
  (number, maybe_int, error, if skip_trailing then skip_spaces p else p).

(** [to_double(item, &value, sep, &maybe_int)]: [precise_xstrtod] with
    trailing spaces skipped; success when no error was set and the whole
    C string was read. *)
Definition to_double (sep : Ascii.ascii) (item : list Ascii.ascii) : float * bool * bool :=
  let '(v, maybe_int, error, p_end) := precise_xstrtod sep true item in
  (v, maybe_int, negb error && match p_end with [] => true | _ => false end).

(** [strcasecmp(data, w) == 0] *)
Definition strcaseeq (data : list Ascii.ascii) (w : string) : bool :=
  String.eqb (string_of_list_ascii (map tolower_ascii data)) w.

(** [floatify(val, &fval, &maybe_int)] on a [str]: [to_double] with the
    separator [' '], then the spellings of infinity (the whole C string,
    case-insensitively), else [ValueError]. *)
Definition floatify (s : string) : res (float * bool) :=
  let data := c_string (list_ascii_of_string s) in
  let '(v, maybe_int, status) := to_double " "%char data in
  if status then Ok (v, maybe_int) else
  let inf :=
    match List.length data with
    | 3 => if strcaseeq data "inf" then Some infinity else None
    | 4 => if strcaseeq data "-inf" then Some neg_infinity
           else if strcaseeq data "+inf" then Some infinity else None
    | 8 => if strcaseeq data "infinity" then Some infinity else None
    | 9 => if strcaseeq data "-infinity" then Some neg_infinity
           else if strcaseeq data "+infinity" then Some infinity else None
    | _ => None
    end in
  match inf with
  | Some f => Ok (f, false)
  | None => Err (ValueError ("Unable to parse string " ++ dq ++ string_of_list_ascii data ++ dq))
  end.

(** Python's whitespace among ASCII bytes: \t \n \v \f \r, \x1c-\x1f and
    space. *)
Definition py_isspace (c : Ascii.ascii) : bool :=
  let n := code c in (Nat.leb 9 n && Nat.leb n 13) || (Nat.leb 28 n && Nat.leb n 32).

Fixpoint drop_py_spaces (l : list Ascii.ascii) : list Ascii.ascii :=
  match l with
  | c :: rest => if py_isspace c then drop_py_spaces rest else l
  | [] => []
  end.

Fixpoint digits_value (l : list Ascii.ascii) (acc : Z) : option Z :=
  match l with
  | [] => Some acc
  | c :: rest => if isdigit_ascii c then digits_value rest (acc * 10 + digit_of c)%Z else None
  end.

(** [int(val)] on a string [floatify] read as an integer literal:
    surrounding whitespace, an optional sign and decimal digits (such a
    string holds no underscore, which [int] would also accept between
    digits). *)
Definition py_int_of (s : string) : option Z :=
  let l := rev (drop_py_spaces (rev (drop_py_spaces (list_ascii_of_string s)))) in
  let '(neg, _, body) := xstrtod_sign l in
  match body with
  | [] => None
  | _ => option_map (fun z => if neg then (- z)%Z else z) (digits_value body 0)
  end.

(** The classification of one cell by [maybe_convert_numeric]: a float,
    an integer (with its float) or a bool. *)
Inductive num_cell : Type :=
| NFloat (f : float)
| NInt (fv : float) (z : Z)
| NBool (b : bool).

Definition INT64_MIN : Z := (- 2 ^ 63)%Z.
Definition INT64_MAX : Z := (2 ^ 63 - 1)%Z.
Definition UINT64_MAX : Z := (2 ^ 64 - 1)%Z.

Definition in_int_range (z : Z) : bool := Z.leb INT64_MIN z && Z.leb z UINT64_MAX.

(** One cell.  A float stays a float; an int in [[-2^63, 2^64 - 1]] is an
    integer, a larger one a float (or [OverflowError]); a bool is a bool;
    [None] and an empty string, list or dict are NaN.  A non-empty string
    goes through [floatify]; when that saw an integer literal, [int(val)]
    gives the integer, which must fit in [[-2^63, 2^64 - 1]].  Any other
    object is refused by [floatify]. *)
Definition numeric_cell (v : pyval) : res num_cell :=
  match v with
  | PFloat f => Ok (NFloat f)
  | PInt z =>
      f <- int_to_float z ;;
      if in_int_range z then Ok (NInt f z) else Ok (NFloat f)
  | PBool b => Ok (NBool b)
  | PNone => Ok (NFloat nan)
  | PStr s =>
      if String.eqb s "" then Ok (NFloat nan) else
      fm <- floatify s ;;
      let '(fv, maybe_int) := fm in
      if maybe_int then
        match py_int_of s with
        | None => Err (ValueError ("invalid literal for int() with base 10: " ++ s))
        | Some z => if in_int_range z then Ok (NInt fv z)
                    else Err (ValueError "Integer out of range.")
        end
      else Ok (NFloat fv)
  | PList [] | PDict [] => Ok (NFloat nan)
  | PList _ | PDict _ => Err (TypeError "Invalid object type")
  end.

(** The [ValueError] or [TypeError] of the cell at position [i] is
    raised again with the position appended. *)
Definition at_position (e : exn) (i : nat) : exn :=
  match e with
  | ValueError m => ValueError (m ++ " at position " ++ show_nat i)
  | TypeError m => TypeError (m ++ " at position " ++ show_nat i)
  | _ => e
  end.

Fixpoint convert_cells (i : nat) (col : list pyval) : res (list num_cell) :=
  match col with
  | [] => Ok []
  | v :: rest =>
      match numeric_cell v with
      | Ok c => cs <- convert_cells (S i) rest ;; Ok (c :: cs)
      | Err e => Err (at_position e i)
      end
  end.

(** The flags [maybe_convert_numeric] raises while it classifies. *)
Definition saw_null (c : num_cell) : bool :=
  match c with NFloat f => negb (PrimFloat.eqb f f) | _ => false end.
Definition saw_float (c : num_cell) : bool :=
  match c with NFloat _ => true | _ => false end.
Definition saw_int (c : num_cell) : bool :=
  match c with NInt _ _ => true | _ => false end.
Definition saw_sint (c : num_cell) : bool :=
  match c with NInt _ z => Z.ltb z 0 | _ => false end.
Definition saw_uint (c : num_cell) : bool :=
  match c with NInt _ z => Z.ltb INT64_MAX z | _ => false end.
Definition saw_bool (c : num_cell) : bool :=
  match c with NBool _ => true | _ => false end.

Definition cell_float (c : num_cell) : pyval :=
  match c with
  | NFloat f => PFloat f
  | NInt fv _ => PFloat fv
  | NBool b => PFloat (float_of_Z (bool_to_Z b))
  end.

Definition cell_int (c : num_cell) : pyval :=
  match c with
  | NFloat f => PFloat f
  | NInt _ z => PInt z
  | NBool b => PInt (bool_to_Z b)
  end.

Definition cell_bool (c : num_cell) : pyval :=
  match c with
  | NBool b => PBool b
  | c => cell_int c
  end.

(** [pd.to_numeric(col)] on an object column.  An integer above
    [2^63 - 1] next to a NaN or a negative integer fits no dtype: the
    column comes back unconverted.  Otherwise one float makes the column
    float64, else one integer makes it an int64/uint64 column, else it is
    a bool column.  (A column already of a numeric dtype is returned as
    it is; on such a column the conversion below gives it back too.) *)
Definition pd_to_numeric (col : list pyval) : res (list pyval) :=
  cells <- convert_cells 0 col ;;
  if existsb saw_uint cells && (existsb saw_null cells || existsb saw_sint cells)
  then Ok col
  else if existsb saw_float cells then Ok (map cell_float cells)
  else if existsb saw_int cells then Ok (map cell_int cells)
  else if existsb saw_bool cells then Ok (map cell_bool cells)
  else Ok (map cell_int cells).

(** [pd.to_numeric(x)] on a scalar, as [p_rates] calls it: a Python
    number ([bool] included) is returned unchanged.  Anything else comes
    back as a numpy scalar, whose arithmetic this model does not follow. *)
Definition pd_to_numeric_scalar (v : pyval) : res pyval :=
  match v with
  | PInt _ | PFloat _ | PBool _ => Ok v
  | _ => Err (Unmodelled "pd.to_numeric of a non-number")
  end.

(* ------------------------------------------------------------------ *)
(** ** pandas: the DataFrame constructor, [assign], [reset_index], [to_dict] *)

(** A DataFrame with a RangeIndex: its row count and its named columns,
    in order.  Cells are the Python objects of an object column, or the
    values of a numeric column. *)
Record table : Type := mkTable {
  nrows : nat;
  columns : list (key * list pyval)
}.

Definition as_dict (v : pyval) : option (list (key * pyval)) :=
  match v with PDict kv => Some kv | _ => None end.

Fixpoint all_dicts (l : list pyval) : option (list (list (key * pyval))) :=
  match l with
  | [] => Some []
  | v :: rest =>
      match as_dict v, all_dicts rest with
      | Some kv, Some kvs => Some (kv :: kvs)
      | _, _ => None
      end
  end.

Definition add_key (acc : list key) (k : key) : list key :=
  if existsb (key_eqb k) acc then acc else (acc ++ [k])%list.

(** Columns of a list of records: the keys in order of first appearance;
    a record missing a key has NaN there. *)
Definition from_records (rows : list (list (key * pyval))) : table :=
  let ks := fold_left (fun acc kv => fold_left add_key (map fst kv) acc) rows [] in
  mkTable (List.length rows)
    (map (fun k => (k, map (fun kv => match assoc k kv with
                                      | Some v => v
                                      | None => PFloat nan
                                      end) rows)) ks).

Definition key_value (k : key) : pyval :=
  match k with KStr s => PStr s | KInt z => PInt z end.

(** [list(row)] for a row of a list of lists: a list's elements, a dict's
    keys, a string's characters; [len(row)] refuses anything else. *)
Definition row_items (v : pyval) : res (list pyval) :=
  match v with
  | PList l => Ok l
  | PDict kv => Ok (map (fun kx => key_value (fst kx)) kv)
  | PStr s => Ok (map (fun c => PStr (String c EmptyString)) (list_ascii_of_string s))
  | _ => Err (TypeError "object has no len()")
  end.

(** [lib.to_object_array(rows)]: columns [0 .. k-1] for the longest row
    length [k], shorter rows padded with [None]. *)
Definition from_lists (rows : list (list pyval)) : table :=
  let k := fold_left Nat.max (map (@List.length pyval) rows) 0 in
  mkTable (List.length rows)
    (map (fun j => (KInt (Z.of_nat j), map (fun r => nth j r PNone) rows)) (seq 0 k)).

(** [pd.DataFrame(d)] for a dict ([dict_to_mgr] and [_extract_index]):
    list values give the rows and must have one length; scalar values are
    broadcast to it; dict values cannot be mixed with lists, and alone
    give an index built from their keys, which is not modelled. *)
Definition dict_frame (kv : list (key * pyval)) : res table :=
  match kv with
  | [] => Ok (mkTable 0 [])
  | _ =>
    let lens := flat_map (fun kx => match snd kx with
                                    | PList l => [List.length l]
                                    | _ => []
                                    end) kv in
    let have_dicts := existsb (fun kx => match snd kx with PDict _ => true | _ => false end) kv in
    match lens with
    | [] => if have_dicts then Err (Unmodelled "index from the keys of dict values")
            else Err (ValueError "If using all scalar values, you must pass an index")
    | n :: _ =>
        if negb (forallb (Nat.eqb n) lens)
        then Err (ValueError "All arrays must be of the same length")
        else if have_dicts
        then Err (ValueError "Mixing dicts with non-Series may lead to ambiguous ordering.")
        else Ok (mkTable n (map (fun kx => (fst kx, match snd kx with
                                                    | PList l => l
                                                    | v => repeat v n
                                                    end)) kv))
    end
  end.

(** [pd.DataFrame(data)] for the shapes [json.loads] can give.  [None]
    and [[]] give the empty frame.  A list whose first element is a dict
    is a list of records ([AttributeError] on [.keys()] when another
    element is not a dict); a list whose first element is a list spreads
    its rows over the columns [0], [1], ...; a list of scalars gives the
    single column [0]; a dict is handled by [dict_frame]; a scalar is
    refused. *)
Definition pd_DataFrame (data : pyval) : res table :=
  match data with
  | PNone => Ok (mkTable 0 [])
  | PList [] => Ok (mkTable 0 [])
  | PList ((PDict _ :: _) as l) =>
      match all_dicts l with
      | Some rows => Ok (from_records rows)
      | None => Err (AttributeError "keys")
      end
  | PList ((PList _ :: _) as l) => rows <- map_res row_items l ;; Ok (from_lists rows)
  | PList l => Ok (mkTable (List.length l) [(KInt 0, l)])
  | PDict kv => dict_frame kv
  | _ => Err (ValueError "DataFrame constructor not properly called!")
  end.

(** [df.name]: the column of that name, or [AttributeError]. *)
Definition df_getattr (df : table) (name : string) : res (list pyval) :=
  match assoc (KStr name) (columns df) with
  | Some col => Ok col
  | None => Err (AttributeError name)
  end.

Fixpoint set_column (cols : list (key * list pyval)) (k : key) (col : list pyval)
  : list (key * list pyval) :=
  match cols with
  | [] => [(k, col)]
  | (k', c) :: rest =>
      if key_eqb k k' then (k', col) :: rest else (k', c) :: set_column rest k col
  end.

(** [df.assign(name=f)]: [f] is applied to [df]; its column replaces the
    column of that name in place or is appended. *)
Definition df_assign (df : table) (name : string) (f : table -> res (list pyval))
  : res table :=
  col <- f df ;;
  Ok (mkTable (nrows df) (set_column (columns df) (KStr name) col)).

(** [df.reset_index()]: the RangeIndex becomes a first column named
    [index] ([level_0] when [index] is taken). *)
Definition df_reset_index (df : table) : res table :=
  let idx := map (fun i => PInt (Z.of_nat i)) (seq 0 (nrows df)) in
  let taken n := match assoc (KStr n) (columns df) with Some _ => true | None => false end in
  if negb (taken "index") then Ok (mkTable (nrows df) ((KStr "index", idx) :: columns df))
  else if negb (taken "level_0") then Ok (mkTable (nrows df) ((KStr "level_0", idx) :: columns df))
  else Err (ValueError "cannot insert level_0, already exists").

(** [lambda df: pd.to_numeric(df.name)] *)
Definition coerce (name : string) (df : table) : res (list pyval) :=
  col <- df_getattr df name ;; pd_to_numeric col.

(** main.py lines 41-47: the reshape step. *)
Definition reshape (raw_df : table) : res table :=
  d1 <- df_assign raw_df "totalBorrows" (coerce "totalBorrows") ;;
  d2 <- df_assign d1 "totalSupply" (coerce "totalSupply") ;;
  d3 <- df_assign d2 "borrowRate" (coerce "borrowRate") ;;
  d4 <- df_assign d3 "supplyRate" (coerce "supplyRate") ;;
  d5 <- df_assign d4 "exchangeRate" (coerce "exchangeRate") ;;
  df_reset_index d5.

(** main.py line 59: [df.to_dict(orient='index')], the row dicts keyed by
    their RangeIndex label; cells come out as plain Python values. *)
Definition df_to_dict (df : table) : pyval :=
  PDict (map (fun i => (KInt (Z.of_nat i),
                        PDict (map (fun '(k, col) => (k, nth i col (PFloat nan)))
                                   (columns df))))
             (seq 0 (nrows df))).

(* ------------------------------------------------------------------ *)
(** ** The cadCAD model: state, policy and state-update functions *)

(** The four state variables of [initial_state]. *)
Inductive var : Type :=
| V_lender_APY
| V_borrower_rate
| V_utilization_rate
| V_exchange_rate.

(** A cadCAD state record: the four variables and the bookkeeping fields
    the engine adds to every record. *)
Record state : Type := mkState {
  lender_APY : pyval;
  borrower_rate : pyval;
  utilization_rate : pyval;
  exchange_rate : pyval;
  simulation : nat;
  subset : nat;
  run : nat;
  substep : nat;
  timestep : nat
}.

Definition set_var (st : state) (u : var * pyval) : state :=
  let '(x, v) := u in
  match x with
  | V_lender_APY =>
      mkState v (borrower_rate st) (utilization_rate st) (exchange_rate st)
              (simulation st) (subset st) (run st) (substep st) (timestep st)
  | V_borrower_rate =>
      mkState (lender_APY st) v (utilization_rate st) (exchange_rate st)
              (simulation st) (subset st) (run st) (substep st) (timestep st)
  | V_utilization_rate =>
      mkState (lender_APY st) (borrower_rate st) v (exchange_rate st)
              (simulation st) (subset st) (run st) (substep st) (timestep st)
  | V_exchange_rate =>
      mkState (lender_APY st) (borrower_rate st) (utilization_rate st) v
              (simulation st) (subset st) (run st) (substep st) (timestep st)
  end.

Definition with_position (st : state) (sub ts r : nat) : state :=
  mkState (lender_APY st) (borrower_rate st) (utilization_rate st) (exchange_rate st)
          (simulation st) (subset st) r sub ts.

(** [try: m  except ZeroDivisionError: handler] *)
Definition except_zero_division (m : res pyval) (handler : pyval) : res pyval :=
  match m with
  | Err ZeroDivisionError => Ok handler
  | r => r
  end.

(** main.py lines 67-87. *)
Definition p_rates (params : pyval) (substep : nat) (state_history : list (list state))
    (previous_state : state) : res pyval :=
  let t := Z.of_nat (timestep previous_state) in
  new_df <- getitem params (KStr "new_df") ;;
  ts_data <- getitem new_df (KInt t) ;;
  lender_APY <- getitem ts_data (KStr "supplyRate") ;;
  borrower_rate <- getitem ts_data (KStr "borrowRate") ;;
  exchange_rate <- getitem params (KStr "exchange_rate") ;;
  total_borrowed <- getitem ts_data (KStr "totalBorrows") ;;
  TVL <- getitem ts_data (KStr "totalSupply") ;;
  utilization_rate <-
    except_zero_division
      (b <- pd_to_numeric_scalar total_borrowed ;;
       s <- pd_to_numeric_scalar TVL ;;
       q <- py_truediv b s ;;
       py_mul q (PInt 100))
      (PInt 0) ;;
  Ok (PDict [(KStr "lender_APY", lender_APY);
             (KStr "borrower_rate", borrower_rate);
             (KStr "exchange_rate", exchange_rate);
             (KStr "utilization_rate", utilization_rate)]).

(** main.py lines 90-104. *)
Definition s_lender_APY (params : pyval) (substep : nat) (state_history : list (list state))
    (previous_state : state) (policy_input : pyval) : res (var * pyval) :=
  value <- getitem policy_input (KStr "lender_APY") ;; Ok (V_lender_APY, value).

Definition s_borrower_APY (params : pyval) (substep : nat) (state_history : list (list state))
    (previous_state : state) (policy_input : pyval) : res (var * pyval) :=
  value <- getitem policy_input (KStr "borrower_rate") ;; Ok (V_borrower_rate, value).

Definition s_utilization_rate (params : pyval) (substep : nat) (state_history : list (list state))
    (previous_state : state) (policy_input : pyval) : res (var * pyval) :=
  value <- getitem policy_input (KStr "utilization_rate") ;; Ok (V_utilization_rate, value).

Definition s_exchange_rate (params : pyval) (substep : nat) (state_history : list (list state))
    (previous_state : state) (policy_input : pyval) : res (var * pyval) :=
  value <- getitem policy_input (KStr "exchange_rate") ;; Ok (V_exchange_rate, value).

(** One partial state update of the block of main.py lines 107-119, as
    cadCAD's engine performs it: the policy [p_rates] and the four update
    functions all read the last record with its substep reset to 0; the
    new record has substep [sub_step] and timestep [time_step].  An
    exception in a policy or update function aborts the execution. *)
Definition partial_state_update (params : pyval) (sub_step : nat)
    (sH : list (list state)) (last : state) (time_step r : nat) : res state :=
  let prev := with_position last 0 (timestep last) (run last) in
  policy_input <- p_rates params sub_step sH prev ;;
  u1 <- s_lender_APY params sub_step sH prev policy_input ;;
  u2 <- s_borrower_APY params sub_step sH prev policy_input ;;
  u3 <- s_utilization_rate params sub_step sH prev policy_input ;;
  u4 <- s_exchange_rate params sub_step sH prev policy_input ;;
  Ok (with_position (fold_left set_var [u1; u2; u3; u4] prev) sub_step time_step r).

(* ------------------------------------------------------------------ *)
(** ** The configuration and its registration (main.py lines 51-131) *)

(** main.py lines 51-56. *)
Definition initial_state : pyval :=
  PDict [(KStr "lender_APY", PFloat 0); (KStr "borrower_rate", PFloat 0);
         (KStr "utilization_rate", PFloat 0); (KStr "exchange_rate", PFloat 0)].

(** main.py lines 61-64. *)
Definition system_params (df_dict : pyval) : pyval :=
  PDict [(KStr "new_df", PList [df_dict]);
         (KStr "exchange_rate", PList [PStr "exchangeRate"])].

(** [len(x)] *)
Definition py_len (v : pyval) : res nat :=
  match v with
  | PDict kv => Ok (List.length kv)
  | PList l => Ok (List.length l)
  | PStr s => Ok (String.length s)
  | _ => Err (TypeError "object has no len()")
  end.

(** The dict [config] of main.py lines 122-128, its entries [T], [N], [M]
    and [initial_state]; its [partial_state_update_blocks] are the
    functions above, called by [partial_state_update]. *)
Record sim_config : Type := mkConfig {
  cfg_T : list nat;
  cfg_N : Z;
  cfg_M : pyval;
  cfg_initial_state : pyval
}.

(** main.py lines 122-128. *)
Definition config (df_dict : pyval) : res sim_config :=
  n <- py_len df_dict ;;
  Ok (mkConfig (seq 0 n) 1 (system_params df_dict) initial_state).

(** cadCAD's [sim_configs[0]['N']], falling back to [sim_configs['N']]
    on [KeyError]: the first statement of [append_configs],
      try: max_runs = sim_configs[0]['N']
      except KeyError: max_runs = sim_configs['N'] *)
Definition max_runs (sim_configs : pyval) : res pyval :=
  match (c <- getitem sim_configs (KInt 0) ;; getitem c (KStr "N")) with
  | Err (KeyError _) => getitem sim_configs (KStr "N")
  | r => r
  end.

(** cadCAD's [Experiment.append_configs(user_id='cadCAD_user',
    model_id=None, sim_configs={}, ...)].  main.py line 131 passes
    [config] positionally, so it binds [user_id], and [sim_configs] keeps
    its default [{}].  Only the opening read of the run count is
    modelled: [Ok] means the call got past it; the registration that
    follows is not modelled. *)
Definition append_configs (user_id : sim_config) (sim_configs : pyval) : res unit :=
  _ <- max_runs sim_configs ;; Ok tt.

(* ------------------------------------------------------------------ *)
(** ** The script (main.py lines 35-131) *)

(** What [r.content] holds: a JSON document (given by the Python value
    [json.loads] decodes it to) or text that is not JSON. *)
Inductive body : Type :=
| JsonText (v : pyval)
| OtherText (s : string).

(** The outcome of [req.post(API_URI, json=JSON)]: a connection failure
    raises; any HTTP status is returned, as [requests] does without
    [raise_for_status]. *)
Inductive http_outcome : Type :=
| NetworkFailure
| Response (status : Z) (content : body).

Record response : Type := mkResponse { status_code : Z; content : body }.

Definition req_post (h : http_outcome) : res response :=
  match h with
  | NetworkFailure => Err ConnectionError
  | Response s c => Ok (mkResponse s c)
  end.

Definition json_loads (b : body) : res pyval :=
  match b with
  | JsonText v => Ok v
  | OtherText _ => Err JSONDecodeError
  end.

(** main.py lines 35-47: the fetch and the reshape, giving [df]. *)
Definition load_df (h : http_outcome) : res table :=
  r <- req_post h ;;
  doc <- json_loads (content r) ;;
  graph_data <- getitem doc (KStr "data") ;;
  markets <- getitem graph_data (KStr "markets") ;;
  raw_df <- pd_DataFrame markets ;;
  reshape raw_df.

(** main.py lines 35-131: [Ok tt] would mean the script got past
    [exp.append_configs(config)] (line 130 [exp = Experiment()] only
    builds the empty experiment); the execution and the page that follow
    (lines 133-189) are not modelled. *)
Definition main_result (h : http_outcome) : res unit :=
  df <- load_df h ;;
  let df_dict := df_to_dict df in
  cfg <- config df_dict ;;
  append_configs cfg (PDict []).

(* ------------------------------------------------------------------ *)
(** ** Reading the model *)

(** The five columns the reshape step converts, in its order. *)
Definition coerced_columns : list string :=
  ["totalBorrows"; "totalSupply"; "borrowRate"; "supplyRate"; "exchangeRate"].

(** The chain of [assign] calls of the reshape step, one per name. *)
Fixpoint assign_all (names : list string) (d : table) : res table :=
  match names with
  | [] => Ok d
  | n :: rest => d' <- df_assign d n (coerce n) ;; assign_all rest d'
  end.





Definition rates (st : state) : pyval * pyval * pyval * pyval :=
  (lender_APY st, borrower_rate st, utilization_rate st, exchange_rate st).

Definition res_map {A B : Type} (f : A -> B) (m : res A) : res B :=
  match m with Ok a => Ok (f a) | Err e => Err e end.

(* ------------------------------------------------------------------ *)
(** ** Concrete inputs *)

(** One market object of the GraphQL response, its five fields as the
    strings the endpoint returns. *)
Definition market (borrowRate supplyRate totalBorrows totalSupply exchangeRate : string)
  : pyval :=
  PDict [(KStr "borrowRate", PStr borrowRate); (KStr "supplyRate", PStr supplyRate);
         (KStr "totalBorrows", PStr totalBorrows); (KStr "totalSupply", PStr totalSupply);
         (KStr "exchangeRate", PStr exchangeRate)].

(** A response body [{"data": {"markets": [...]}}]. *)
Definition markets_response (markets : list pyval) : http_outcome :=
  Response 200 (JsonText (PDict [(KStr "data", PDict [(KStr "markets", PList markets)])])).

(** Two markets, the second with nothing supplied. *)
Definition ex_markets : list pyval :=
  [market "0.05" "0.03" "50" "100" "0.02"; market "0.1" "0.2" "1.5" "0" "0.3"].

Definition ex_raw_df : table :=
  match pd_DataFrame (PList ex_markets) with Ok t => t | Err _ => mkTable 0 [] end.

Definition ex_df : table :=
  match reshape ex_raw_df with Ok t => t | Err _ => mkTable 0 [] end.

(** A parameter dict with the keys of [system_params], holding the given
    values. *)
Definition params_with (new_df exchange_rate : pyval) : pyval :=
  PDict [(KStr "new_df", new_df); (KStr "exchange_rate", exchange_rate)].

(** Parameters whose [new_df] is the row dict of [ex_df] itself. *)
Definition ex_params : pyval := params_with (df_to_dict ex_df) (PStr "exchangeRate").

(** A record of timestep 0 holding the initial state. *)
Definition state0 : state := mkState (PFloat 0) (PFloat 0) (PFloat 0) (PFloat 0) 0 0 1 0 0.

(** The five fields of one market object, as the strings the endpoint
    returns them. *)
Record market_fields : Type := mkMarket {
  f_borrowRate : string;
  f_supplyRate : string;
  f_totalBorrows : string;
  f_totalSupply : string;
  f_exchangeRate : string
}.

Definition market_of (m : market_fields) : pyval :=
  market (f_borrowRate m) (f_supplyRate m) (f_totalBorrows m) (f_totalSupply m)
         (f_exchangeRate m).

(** A one-market frame whose [totalBorrows] is the empty string. *)
Definition blank_raw_df : table :=
  match pd_DataFrame (PList [market "0.05" "0.03" "" "100" "0.02"]) with
  | Ok t => t
  | Err _ => mkTable 0 []
  end.

(* ------------------------------------------------------------------ *)
(** ** Lemmas on keys, columns and the reshape step *)

(** The keys of a market object, in the order of the query's fields. *)
Definition market_keys : list key :=
  [KStr "borrowRate"; KStr "supplyRate"; KStr "totalBorrows"; KStr "totalSupply";
   KStr "exchangeRate"].

Definition fields_of (m : market_fields) : list string :=
  [f_borrowRate m; f_supplyRate m; f_totalBorrows m; f_totalSupply m; f_exchangeRate m].



Lemma key_eqb_true (a b : key) : key_eqb a b = true <-> a = b.
Proof.
  destruct a as [s|z], b as [t|w]; simpl; split; intro H; try discriminate.
  - apply String.eqb_eq in H; now subst.
  - inversion H; subst; apply String.eqb_refl.
  - apply Z.eqb_eq in H; now subst.
  - inversion H; subst; apply Z.eqb_refl.
Qed.

Lemma key_eqb_refl (k : key) : key_eqb k k = true.
Proof. now apply key_eqb_true. Qed.

Lemma key_eqb_false (a b : key) : a <> b -> key_eqb a b = false.
Proof.
  intro H; destruct (key_eqb a b) eqn:E; [|reflexivity].
  apply key_eqb_true in E; contradiction.
Qed.

Lemma assoc_set_column_same cols k col :
  assoc k (set_column cols k col) = Some col.
Proof.
  induction cols as [|[k' c] rest IH]; simpl.
  - now rewrite key_eqb_refl.
  - destruct (key_eqb k k') eqn:E; simpl; now rewrite E.
Qed.

Lemma assoc_set_column_other cols k k' col :
  k' <> k -> assoc k' (set_column cols k col) = assoc k' cols.
Proof.
  intro Hne; induction cols as [|[k0 c] rest IH]; simpl.
  - now rewrite key_eqb_false.
  - destruct (key_eqb k k0) eqn:E; simpl.
    + apply key_eqb_true in E; subst k0.
      now rewrite (key_eqb_false _ _ Hne).
    + now rewrite IH.
Qed.

Lemma reshape_as_assign_all raw_df :
  reshape raw_df = (d5 <- assign_all coerced_columns raw_df ;; df_reset_index d5).
Proof.
  unfold reshape, assign_all, coerced_columns.
  destruct (df_assign raw_df "totalBorrows" _); simpl; [|reflexivity].
  destruct (df_assign _ "totalSupply" _); simpl; [|reflexivity].
  destruct (df_assign _ "borrowRate" _); simpl; [|reflexivity].
  destruct (df_assign _ "supplyRate" _); simpl; [|reflexivity].
  destruct (df_assign _ "exchangeRate" _); reflexivity.
Qed.

Lemma assign_all_inv names : NoDup names -> forall d d',
  assign_all names d = Ok d' ->
  nrows d' = nrows d /\
  (forall c, In c names -> exists col col',
     assoc (KStr c) (columns d) = Some col /\ pd_to_numeric col = Ok col' /\
     assoc (KStr c) (columns d') = Some col') /\
  (forall k, (forall c, In c names -> k <> KStr c) ->
     assoc k (columns d') = assoc k (columns d)).
Proof.
  induction names as [|n rest IH]; intros Hnd d d' H; simpl in H.
  - inversion H; subst; repeat split; intros; try contradiction; reflexivity.
  - inversion Hnd as [|? ? Hn Hnd']; subst.
    unfold df_assign, coerce, df_getattr in H.
    destruct (assoc (KStr n) (columns d)) as [col|] eqn:Ecol; simpl in H; [|discriminate].
    destruct (pd_to_numeric col) as [col'|] eqn:Enum; simpl in H; [|discriminate].
    destruct (IH Hnd' _ _ H) as (Hrows & Hcols & Hother); simpl in *.
    split; [exact Hrows|split].
    + intros c [<-|Hc].
      * exists col, col'; repeat split; auto.
        rewrite Hother; [apply assoc_set_column_same|].
        intros c' Hc' Heq; inversion Heq; subst; contradiction.
      * destruct (Hcols c Hc) as (x & x' & Hx & Hx' & Hd').
        exists x, x'; repeat split; auto.
        rewrite <- Hx, assoc_set_column_other; [reflexivity|].
        intro Heq; inversion Heq; subst; contradiction.
    + intros k Hk. rewrite Hother by (intros; apply Hk; now right).
      apply assoc_set_column_other. apply Hk; now left.
Qed.

Lemma reset_index_inv d d' :
  df_reset_index d = Ok d' ->
  nrows d' = nrows d /\
  exists k idx, (k = KStr "index" \/ k = KStr "level_0") /\
                columns d' = (k, idx) :: columns d.
Proof.
  unfold df_reset_index; intro H.
  destruct (negb _); [inversion H; subst; simpl; split; eauto|].
  destruct (negb _); [inversion H; subst; simpl; split; eauto|discriminate].
Qed.

Lemma coerced_columns_NoDup : NoDup coerced_columns.
Proof.
  unfold coerced_columns.
  repeat constructor; simpl; intuition discriminate.
Qed.

(** The reshape step replaces exactly the five columns by their
    [pd.to_numeric] conversion and inserts the index column in front. *)
Lemma reshape_inv raw_df df :
  reshape raw_df = Ok df ->
  nrows df = nrows raw_df /\
  (forall c, In c coerced_columns -> exists col col',
     assoc (KStr c) (columns raw_df) = Some col /\ pd_to_numeric col = Ok col' /\
     assoc (KStr c) (columns df) = Some col') /\
  (forall k, (forall c, In c coerced_columns -> k <> KStr c) ->
     k <> KStr "index" -> k <> KStr "level_0" ->
     assoc k (columns df) = assoc k (columns raw_df)).
Proof.
  rewrite reshape_as_assign_all; intro H.
  destruct (assign_all coerced_columns raw_df) as [d5|] eqn:E5; simpl in H; [|discriminate].
  destruct (assign_all_inv _ coerced_columns_NoDup _ _ E5) as (Hrows & Hcols & Hother).
  destruct (reset_index_inv _ _ H) as (Hrows' & k0 & idx & Hk0 & Hcols').
  split; [congruence|split].
  - intros c Hc; destruct (Hcols c Hc) as (col & col' & H1 & H2 & H3).
    exists col, col'; repeat split; auto.
    rewrite Hcols'; cbn [assoc].
    replace (key_eqb (KStr c) k0) with false; [exact H3|].
    symmetry; apply key_eqb_false; intro Heq; subst k0.
    unfold coerced_columns in Hc; simpl in Hc.
    destruct Hk0 as [Hk0|Hk0]; inversion Hk0; subst;
      intuition discriminate.
  - intros k Hk Hi Hl. rewrite Hcols'; cbn [assoc].
    replace (key_eqb k k0) with false.
    + now apply Hother.
    + symmetry; apply key_eqb_false; intro Heq; subst k0.
      destruct Hk0; contradiction.
Qed.

Lemma assoc_In {A : Type} (k : key) (l : list (key * A)) v :
  assoc k l = Some v -> exists k', In (k', v) l.
Proof.
  induction l as [|[k' w] rest IH]; simpl; [discriminate|].
  destruct (key_eqb k k'); intro H.
  - inversion H; subst; eauto.
  - destruct (IH H) as [k'' Hin]; eauto.
Qed.

Lemma set_column_Forall (P : list pyval -> Prop) cols k col :
  Forall (fun kc => P (snd kc)) cols -> P col ->
  Forall (fun kc => P (snd kc)) (set_column cols k col).
Proof.
  intros Hcols Hcol; induction Hcols as [|[k' c] rest Hc Hrest IH]; simpl.
  - repeat constructor; exact Hcol.
  - destruct (key_eqb k k'); constructor; auto.
Qed.

(* ------------------------------------------------------------------ *)
(** ** Lemmas on [pd.to_numeric] *)

Lemma convert_cells_length col : forall i cs,
  convert_cells i col = Ok cs -> List.length cs = List.length col.
Proof.
  induction col as [|v rest IH]; intros i cs H; simpl in H.
  - now inversion H.
  - destruct (numeric_cell v) as [c|e]; [|discriminate].
    destruct (convert_cells (S i) rest) as [cs'|e] eqn:E; cbn [bind] in H; [|discriminate].
    inversion H; subst; simpl; f_equal; eauto.
Qed.

Lemma convert_cells_nth col : forall i cs j v,
  convert_cells i col = Ok cs -> nth_error col j = Some v ->
  exists c, numeric_cell v = Ok c /\ nth_error cs j = Some c.
Proof.
  induction col as [|x rest IH]; intros i cs j v H Hj; [destruct j; discriminate|].
  simpl in H. destruct (numeric_cell x) as [c|e] eqn:Ex; [|discriminate].
  destruct (convert_cells (S i) rest) as [cs'|e] eqn:E; cbn [bind] in H; [|discriminate].
  inversion H; subst. destruct j as [|j]; simpl in Hj.
  - inversion Hj; subst; eauto.
  - exact (IH _ _ _ _ E Hj).
Qed.

Lemma convert_cells_In col : forall i cs c,
  convert_cells i col = Ok cs -> In c cs -> exists v, In v col /\ numeric_cell v = Ok c.
Proof.
  induction col as [|x rest IH]; intros i cs c H Hc; simpl in H.
  - inversion H; subst; contradiction.
  - destruct (numeric_cell x) as [c'|e] eqn:Ex; [|discriminate].
    destruct (convert_cells (S i) rest) as [cs'|e] eqn:E; cbn [bind] in H; [|discriminate].
    inversion H; subst. destruct Hc as [<-|Hc].
    + exists x; split; [now left|exact Ex].
    + destruct (IH _ _ _ E Hc) as (v & Hv & Hvc); exists v; split; [now right|exact Hvc].
Qed.

Lemma convert_cells_err col : forall i j v e,
  nth_error col j = Some v -> numeric_cell v = Err e ->
  exists e', convert_cells i col = Err e'.
Proof.
  induction col as [|x rest IH]; intros i j v e Hj He; [destruct j; discriminate|].
  simpl. destruct j as [|j]; simpl in Hj.
  - inversion Hj; subst. rewrite He. eexists; reflexivity.
  - destruct (numeric_cell x); [|eexists; reflexivity].
    destruct (IH (S i) j v e Hj He) as [e' E]. rewrite E. eexists; reflexivity.
Qed.

Lemma convert_cells_all_ok col : forall i,
  Forall (fun v => exists w, numeric_cell v = Ok w) col ->
  exists cs, convert_cells i col = Ok cs.
Proof.
  induction col as [|x rest IH]; intros i H; [now exists []|].
  inversion H as [|? ? [w Hw] Hrest]; subst.
  destruct (IH (S i) Hrest) as [cs E].
  exists (w :: cs); simpl; rewrite Hw, E; reflexivity.
Qed.

Lemma pd_to_numeric_length col col' :
  pd_to_numeric col = Ok col' -> List.length col' = List.length col.
Proof.
  unfold pd_to_numeric; intro H.
  destruct (convert_cells 0 col) as [cs|e] eqn:E; cbn [bind] in H; [|discriminate].
  pose proof (convert_cells_length _ _ _ E) as Hl.
  repeat match type of H with
         | (if ?b then _ else _) = _ => destruct b
         end; inversion H; subst; rewrite ?length_map; auto.
Qed.

Lemma pd_to_numeric_ok col :
  (exists cs, convert_cells 0 col = Ok cs) -> exists col', pd_to_numeric col = Ok col'.
Proof.
  intros [cs E]; unfold pd_to_numeric; rewrite E; cbn [bind].
  repeat match goal with
         | |- context [if ?b then _ else _] => destruct b
         end; eauto.
Qed.






(* ------------------------------------------------------------------ *)
(** ** Lemmas on the reshape step and the DataFrame constructor *)

Lemma assign_all_lengths names : forall d d',
  assign_all names d = Ok d' ->
  Forall (fun kc => List.length (snd kc) = nrows d) (columns d) ->
  Forall (fun kc => List.length (snd kc) = nrows d) (columns d').
Proof.
  induction names as [|n rest IH]; intros d d' H Hlen; simpl in H.
  - now inversion H; subst.
  - unfold df_assign, coerce, df_getattr in H.
    destruct (assoc (KStr n) (columns d)) as [col|] eqn:Ecol; simpl in H; [|discriminate].
    destruct (pd_to_numeric col) as [col'|] eqn:Enum; simpl in H; [|discriminate].
    apply (IH _ _ H). simpl.
    apply (set_column_Forall (fun c => List.length c = nrows d)); [exact Hlen|].
    destruct (assoc_In _ _ _ Ecol) as [k' Hin].
    rewrite (pd_to_numeric_length _ _ Enum).
    exact (proj1 (Forall_forall _ _) Hlen _ Hin).
Qed.

Lemma assign_all_ok names : NoDup names -> forall d,
  (forall c, In c names -> exists col,
     assoc (KStr c) (columns d) = Some col /\
     Forall (fun v => exists w, numeric_cell v = Ok w) col) ->
  exists d', assign_all names d = Ok d'.
Proof.
  induction names as [|n rest IH]; intros Hnd d Hcols; [now exists d|].
  inversion Hnd as [|? ? Hn Hnd']; subst.
  destruct (Hcols n (or_introl eq_refl)) as (col & Hcol & Hok).
  destruct (pd_to_numeric_ok col (convert_cells_all_ok col 0 Hok)) as [col' Hcol'].
  simpl. unfold df_assign, coerce, df_getattr. rewrite Hcol. cbn [bind].
  rewrite Hcol'. cbn [bind].
  apply (IH Hnd'). intros c Hc. cbn [columns].
  rewrite assoc_set_column_other.
  - exact (Hcols c (or_intror Hc)).
  - intro Heq; inversion Heq; subst; contradiction.
Qed.

Lemma reshape_ok raw_df :
  (forall c, In c coerced_columns -> exists col,
     assoc (KStr c) (columns raw_df) = Some col /\
     Forall (fun v => exists w, numeric_cell v = Ok w) col) ->
  assoc (KStr "index") (columns raw_df) = None \/
  assoc (KStr "level_0") (columns raw_df) = None ->
  exists df, reshape raw_df = Ok df.
Proof.
  intros Hcols Hidx. rewrite reshape_as_assign_all.
  destruct (assign_all_ok _ coerced_columns_NoDup raw_df Hcols) as [d5 E5].
  rewrite E5; cbn [bind].
  destruct (assign_all_inv _ coerced_columns_NoDup _ _ E5) as (_ & _ & Hother).
  assert (Hfree : forall s, s <> "totalBorrows" -> s <> "totalSupply" -> s <> "borrowRate" ->
                  s <> "supplyRate" -> s <> "exchangeRate" ->
                  assoc (KStr s) (columns d5) = assoc (KStr s) (columns raw_df)).
  { intros s H1 H2 H3 H4 H5. apply Hother. intros c Hc Heq. inversion Heq; subst c.
    unfold coerced_columns in Hc; simpl in Hc; intuition congruence. }
  unfold df_reset_index.
  rewrite (Hfree "index") by discriminate. rewrite (Hfree "level_0") by discriminate.
  destruct Hidx as [Hi|Hl].
  - rewrite Hi; cbn [negb]; eauto.
  - destruct (assoc (KStr "index") (columns raw_df)); cbn [negb]; [rewrite Hl; cbn [negb]|]; eauto.
Qed.

Lemma all_dicts_markets ms :
  all_dicts (map market_of ms) =
  Some (map (fun m => match market_of m with PDict kv => kv | _ => [] end) ms).
Proof. induction ms as [|m rest IH]; simpl; [reflexivity|]. now rewrite IH. Qed.

Lemma market_keys_stable (rows : list (list (key * pyval))) :
  Forall (fun kv => map fst kv = market_keys) rows ->
  fold_left (fun acc kv => fold_left add_key (map fst kv) acc) rows market_keys = market_keys.
Proof.
  induction 1 as [|kv rows Hkv _ IH]; [reflexivity|].
  simpl. rewrite Hkv. exact IH.
Qed.

Lemma pd_DataFrame_dicts x l kv :
  as_dict x = Some kv ->
  pd_DataFrame (PList (x :: l)) =
  match all_dicts (x :: l) with
  | Some rows => Ok (from_records rows)
  | None => Err (AttributeError "keys")
  end.
Proof. destruct x; try discriminate; reflexivity. Qed.

Lemma pd_DataFrame_markets_table ms :
  ms <> [] ->
  pd_DataFrame (PList (map market_of ms)) =
  Ok (mkTable (List.length ms)
        [(KStr "borrowRate", map (fun m => PStr (f_borrowRate m)) ms);
         (KStr "supplyRate", map (fun m => PStr (f_supplyRate m)) ms);
         (KStr "totalBorrows", map (fun m => PStr (f_totalBorrows m)) ms);
         (KStr "totalSupply", map (fun m => PStr (f_totalSupply m)) ms);
         (KStr "exchangeRate", map (fun m => PStr (f_exchangeRate m)) ms)]).
Proof.
  intro Hne. destruct ms as [|m0 rest]; [contradiction|].
  change (map market_of (m0 :: rest)) with (market_of m0 :: map market_of rest).
  erewrite pd_DataFrame_dicts by reflexivity.
  change (market_of m0 :: map market_of rest) with (map market_of (m0 :: rest)).
  rewrite all_dicts_markets. unfold from_records. rewrite length_map.
  cbn [map fold_left].
  replace (fold_left add_key _ []) with market_keys by reflexivity.
  rewrite market_keys_stable.
  - unfold market_keys. cbn [map]. rewrite !map_map. reflexivity.
  - apply Forall_map, Forall_forall. intros m _. reflexivity.
Qed.

(* ------------------------------------------------------------------ *)
(** ** Lemmas on the conversion of small ints to floats *)










(* ------------------------------------------------------------------ *)
(** ** Lemmas on [p_rates] and the state update *)

Lemma p_rates_read P sub sH prev nd ts sr br xr b s :
  getitem P (KStr "new_df") = Ok nd ->
  getitem nd (KInt (Z.of_nat (timestep prev))) = Ok ts ->
  getitem ts (KStr "supplyRate") = Ok sr ->
  getitem ts (KStr "borrowRate") = Ok br ->
  getitem P (KStr "exchange_rate") = Ok xr ->
  getitem ts (KStr "totalBorrows") = Ok b ->
  getitem ts (KStr "totalSupply") = Ok s ->
  p_rates P sub sH prev =
  (u <- except_zero_division
          (b' <- pd_to_numeric_scalar b ;;
           s' <- pd_to_numeric_scalar s ;;
           q <- py_truediv b' s' ;;
           py_mul q (PInt 100))
          (PInt 0) ;;
   Ok (PDict [(KStr "lender_APY", sr); (KStr "borrower_rate", br);
              (KStr "exchange_rate", xr); (KStr "utilization_rate", u)])).
Proof.
  intros H1 H2 H3 H4 H5 H6 H7. unfold p_rates.
  rewrite H1; cbn [bind]. rewrite H2; cbn [bind]. rewrite H3; cbn [bind].
  rewrite H4; cbn [bind]. rewrite H5; cbn [bind]. rewrite H6; cbn [bind].
  rewrite H7; cbn [bind]. reflexivity.
Qed.


Lemma p_rates_exchange_rate P sub sH prev pi :
  p_rates P sub sH prev = Ok pi ->
  getitem pi (KStr "exchange_rate") = getitem P (KStr "exchange_rate").
Proof.
  unfold p_rates. intro H.
  destruct (getitem P (KStr "new_df")) as [nd|]; cbn [bind] in H; [|discriminate].
  destruct (getitem nd _) as [ts|]; cbn [bind] in H; [|discriminate].
  destruct (getitem ts (KStr "supplyRate")) as [sr|]; cbn [bind] in H; [|discriminate].
  destruct (getitem ts (KStr "borrowRate")) as [br|]; cbn [bind] in H; [|discriminate].
  destruct (getitem P (KStr "exchange_rate")) as [xr|]; cbn [bind] in H; [|discriminate].
  destruct (getitem ts (KStr "totalBorrows")); cbn [bind] in H; [|discriminate].
  destruct (getitem ts (KStr "totalSupply")); cbn [bind] in H; [|discriminate].
  destruct (except_zero_division _ _); cbn [bind] in H; [|discriminate].
  inversion H; subst. reflexivity.
Qed.

Lemma py_index_err {A : Type} (l : list A) z e : py_index l z = Err e -> e = IndexError.
Proof.
  unfold py_index; intro H.
  repeat match type of H with
         | context [if ?c then _ else _] => destruct c
         | context [match ?m with Some _ => _ | None => _ end] => destruct m
         end; inversion H; reflexivity.
Qed.

Lemma getitem_no_zero_division v k : getitem v k <> Err ZeroDivisionError.
Proof.
  intro H. destruct v as [|bb|zz|ff|s|l|kv], k as [ks|z]; cbn [getitem] in H;
    try discriminate.
  - destruct (py_index _ _) eqn:E; cbn [bind] in H; [discriminate|].
    inversion H; subst. apply py_index_err in E. discriminate.
  - apply py_index_err in H. discriminate.
  - destruct (assoc _ _); discriminate.
  - destruct (assoc _ _); discriminate.
Qed.

Lemma except_no_zero_division m h : except_zero_division m h <> Err ZeroDivisionError.
Proof. destruct m as [v|e]; [discriminate|]. destruct e; cbn; discriminate. Qed.

Lemma p_rates_no_zero_division P sub sH prev :
  p_rates P sub sH prev <> Err ZeroDivisionError.
Proof.
  unfold p_rates.
  repeat match goal with
         | |- context [bind ?m _] => let E := fresh "E" in destruct m eqn:E; cbn [bind]
         end.
  all: try discriminate.
  all: intro Hx; inversion Hx; subst;
    first [eapply getitem_no_zero_division; eassumption
          | eapply except_no_zero_division; eassumption].
Qed.

(* ------------------------------------------------------------------ *)
(** ** Lemmas on the configuration and the script *)

Lemma config_df_to_dict df :
  config (df_to_dict df) =
  Ok (mkConfig (seq 0 (nrows df)) 1 (system_params (df_to_dict df)) initial_state).
Proof.
  unfold config. replace (py_len (df_to_dict df)) with (Ok (nrows df)); [reflexivity|].
  unfold py_len, df_to_dict. now rewrite length_map, length_seq.
Qed.

Lemma append_configs_default cfg : append_configs cfg (PDict []) = Err (KeyError (KStr "N")).
Proof. reflexivity. Qed.

Lemma main_result_after_load h df :
  load_df h = Ok df -> main_result h = Err (KeyError (KStr "N")).
Proof.
  intro H. unfold main_result. rewrite H. cbn [bind].
  rewrite config_df_to_dict. cbn [bind]. apply append_configs_default.
Qed.

Lemma main_result_fails h : exists e, main_result h = Err e.
Proof.
  destruct (load_df h) as [df|e] eqn:E.
  - exists (KeyError (KStr "N")). exact (main_result_after_load h df E).
  - exists e. unfold main_result. rewrite E. reflexivity.
Qed.

(* ------------------------------------------------------------------ *)
(** ** Lemmas on blank and unparsable cells *)

Lemma pd_to_numeric_blank col col' i v :
  pd_to_numeric col = Ok col' -> nth_error col i = Some v -> (v = PStr "" \/ v = PNone) ->
  nth_error col' i = Some (PFloat nan) \/
  (col' = col /\ exists u fv z, In u col /\ numeric_cell u = Ok (NInt fv z) /\
                                (INT64_MAX < z)%Z).
Proof.
  intros H Hi Hv. unfold pd_to_numeric in H.
  destruct (convert_cells 0 col) as [cs|e] eqn:E; cbn [bind] in H; [|discriminate].
  destruct (convert_cells_nth _ _ _ _ _ E Hi) as (c & Hc & Hci).
  assert (Hn : numeric_cell v = Ok (NFloat nan)) by (destruct Hv as [-> | ->]; reflexivity).
  rewrite Hn in Hc. inversion Hc; subst c.
  destruct (existsb saw_uint cs && (existsb saw_null cs || existsb saw_sint cs)) eqn:Eu.
  - right. inversion H; subst; split; [reflexivity|].
    apply andb_true_iff in Eu as [Eu _]. apply existsb_exists in Eu as (c & Hin & Hs).
    destruct (convert_cells_In _ _ _ _ E Hin) as (u & Hu & Huc).
    destruct c as [f|fv z|b]; try discriminate. exists u, fv, z; repeat split; auto.
    cbn [saw_uint] in Hs. apply Z.ltb_lt in Hs. exact Hs.
  - left.
    assert (Hf : existsb saw_float cs = true)
      by (apply existsb_exists; exists (NFloat nan); split; [eapply nth_error_In; eauto|reflexivity]).
    rewrite Hf in H. inversion H; subst. rewrite nth_error_map, Hci. reflexivity.
Qed.

Lemma pd_to_numeric_err col i v e :
  nth_error col i = Some v -> numeric_cell v = Err e -> exists e', pd_to_numeric col = Err e'.
Proof.
  intros Hi He. destruct (convert_cells_err col 0 i v e Hi He) as [e' E].
  exists e'. unfold pd_to_numeric. rewrite E. reflexivity.
Qed.

Lemma numeric_cell_unparsable s e :
  s <> "" -> floatify s = Err e -> numeric_cell (PStr s) = Err e.
Proof.
  intros Hs He. cbn [numeric_cell].
  replace (String.eqb s "") with false by (symmetry; now apply String.eqb_neq).
  rewrite He. reflexivity.
Qed.

Lemma load_df_markets l :
  load_df (markets_response l) = (raw_df <- pd_DataFrame (PList l) ;; reshape raw_df).
Proof. reflexivity. Qed.

(* ------------------------------------------------------------------ *)
(** ** The claims *)

(** C1 (code bug): the script never reaches a simulation step: for every
    outcome of the request, main.py raises before line 132 (at the latest
    [KeyError('N')] in [append_configs], line 131).  And in the step
    function itself, the [exchange_rate] that [p_rates] returns is the
    parameter [params['exchange_rate']], not a field of the row. *)
Theorem C1_no_step_and_exchange_rate_from_params :
  (forall h, exists e, main_result h = Err e) /\
  (forall P sub sH prev pi, p_rates P sub sH prev = Ok pi ->
     getitem pi (KStr "exchange_rate") = getitem P (KStr "exchange_rate")).
Proof. split; [exact main_result_fails|exact p_rates_exchange_rate]. Qed.

Lemma C1_witness :
  main_result (markets_response ex_markets) = Err (KeyError (KStr "N")) /\
  getitem (params_with (df_to_dict ex_df) (PStr "rate")) (KStr "exchange_rate")
    = Ok (PStr "rate").
Proof.
  split; [vm_compute; reflexivity|].
  destruct (p_rates (params_with (df_to_dict ex_df) (PStr "rate")) 1 [] state0)
    as [pi|e] eqn:E; [|vm_compute in E; discriminate].
  rewrite <- (proj2 C1_no_step_and_exchange_rate_from_params _ _ _ _ _ E).
  vm_compute in E. inversion E. reflexivity.
Defined.



(** C3 (code bug): when the data loads, the configuration asks for one
    timestep per row ([T = range(len(df_dict))]), but main.py then raises
    [KeyError('N')] at line 131, so no step is performed. *)
Theorem C3_T_per_row_but_no_step h df :
  load_df h = Ok df ->
  (exists cfg, config (df_to_dict df) = Ok cfg /\ cfg_T cfg = seq 0 (nrows df)) /\
  main_result h = Err (KeyError (KStr "N")).
Proof.
  intro H. split.
  - eexists; split; [apply config_df_to_dict|reflexivity].
  - exact (main_result_after_load h df H).
Qed.

Lemma C3_witness :
  (exists cfg, config (df_to_dict ex_df) = Ok cfg /\ cfg_T cfg = [0; 1]) /\
  main_result (markets_response ex_markets) = Err (KeyError (KStr "N")).
Proof.
  exact (C3_T_per_row_but_no_step (markets_response ex_markets) ex_df
           ltac:(vm_compute; reflexivity)).
Defined.




(** C5: the only exception the program catches is the [ZeroDivisionError]
    of the utilization quotient in [p_rates], which then yields 0 and the
    policy goes on; every other failure propagates: a network error, a
    body that is not JSON, a body without [data], an empty market list, a
    field [pd.to_numeric] cannot parse, any other error of the quotient;
    and main.py always ends in an exception. *)
Theorem C5_only_zero_division_caught :
  main_result NetworkFailure = Err ConnectionError /\
  (forall s t, main_result (Response s (OtherText t)) = Err JSONDecodeError) /\
  (forall s, main_result (Response s (JsonText (PDict []))) = Err (KeyError (KStr "data"))) /\
  main_result (markets_response []) = Err (AttributeError "totalBorrows") /\
  (exists msg, main_result (markets_response [market "0.05" "0.03" "x" "100" "0.02"])
               = Err (ValueError msg)) /\
  (forall h, exists e, main_result h = Err e) /\
  (forall P sub sH prev, p_rates P sub sH prev <> Err ZeroDivisionError) /\
  (forall P sub sH prev nd ts sr br xr b s,
     getitem P (KStr "new_df") = Ok nd ->
     getitem nd (KInt (Z.of_nat (timestep prev))) = Ok ts ->
     getitem ts (KStr "supplyRate") = Ok sr ->
     getitem ts (KStr "borrowRate") = Ok br ->
     getitem P (KStr "exchange_rate") = Ok xr ->
     getitem ts (KStr "totalBorrows") = Ok b ->
     getitem ts (KStr "totalSupply") = Ok s ->
     is_num b = true -> is_num s = true ->
     (py_truediv b s = Err ZeroDivisionError ->
      p_rates P sub sH prev =
      Ok (PDict [(KStr "lender_APY", sr); (KStr "borrower_rate", br);
                 (KStr "exchange_rate", xr); (KStr "utilization_rate", PInt 0)])) /\
     (forall e, py_truediv b s = Err e -> e <> ZeroDivisionError ->
      p_rates P sub sH prev = Err e)).
Proof.
  split; [reflexivity|].
  split; [reflexivity|].
  split; [reflexivity|].
  split; [vm_compute; reflexivity|].
  split; [eexists; vm_compute; reflexivity|].
  split; [exact main_result_fails|].
  split; [exact p_rates_no_zero_division|].
  intros P sub sH prev nd ts sr br xr b s H1 H2 H3 H4 H5 H6 H7 Hb Hs.
  rewrite (p_rates_read P sub sH prev nd ts sr br xr b s H1 H2 H3 H4 H5 H6 H7).
  assert (Hsc : forall v, is_num v = true -> pd_to_numeric_scalar v = Ok v)
    by (intros [] Hv; try discriminate; reflexivity).
  rewrite (Hsc b Hb), (Hsc s Hs). cbn [bind].
  split.
  - intro Hd. rewrite Hd. reflexivity.
  - intros e Hd Hne. rewrite Hd. cbn [bind except_zero_division].
    destruct e; try reflexivity. contradiction.
Qed.

Lemma C5_witness :
  main_result NetworkFailure = Err ConnectionError /\
  p_rates (params_with (df_to_dict ex_df) (PStr "exchangeRate")) 1 []
    (mkState (PFloat 0) (PFloat 0) (PFloat 0) (PFloat 0) 0 0 1 0 1) =
  Ok (PDict [(KStr "lender_APY", PFloat 0.2); (KStr "borrower_rate", PFloat 0.1);
             (KStr "exchange_rate", PStr "exchangeRate"); (KStr "utilization_rate", PInt 0)]).
Proof.
  split; [exact (proj1 C5_only_zero_division_caught)|].
  pose proof (proj2 (proj2 (proj2 (proj2 (proj2 (proj2 (proj2
                C5_only_zero_division_caught))))))) as H.
  refine (proj1 (H (params_with (df_to_dict ex_df) (PStr "exchangeRate")) 1 []
           (mkState (PFloat 0) (PFloat 0) (PFloat 0) (PFloat 0) 0 0 1 0 1)
           (df_to_dict ex_df)
           (PDict (map (fun '(c, col) => (c, nth 1 col (PFloat nan))) (columns ex_df)))
           (PFloat 0.2) (PFloat 0.1) (PStr "exchangeRate") (PFloat 1.5) (PInt 0)
           _ _ _ _ _ _ _ _ _) _);
    vm_compute; reflexivity.
Defined.

(** C6, counterexample: a market whose [totalBorrows] is the empty string
    is reshaped without error, the empty string silently becoming NaN. *)
Lemma C6_blank_becomes_nan :
  exists df, reshape blank_raw_df = Ok df /\
             assoc (KStr "totalBorrows") (columns blank_raw_df) = Some [PStr ""] /\
             assoc (KStr "totalBorrows") (columns df) = Some [PFloat nan].
Proof.
  eexists; split; [vm_compute; reflexivity|]. split; vm_compute; reflexivity.
Qed.

(** C6, amended: the reshape converts exactly the five columns
    totalBorrows, totalSupply, borrowRate, supplyRate and exchangeRate
    with [pd.to_numeric] and leaves every other column as it was (besides
    adding the index column).  An empty string or a null there becomes
    NaN without error, unless the column also holds an int above
    [2^63 - 1], in which case pandas returns the whole column unconverted.
    A cell [pd.to_numeric] refuses makes the reshape raise; among them
    every non-empty string its parser rejects. *)
Theorem C6_reshape_coercion raw_df :
  (forall df, reshape raw_df = Ok df ->
     nrows df = nrows raw_df /\
     (forall c, In c coerced_columns -> exists col col',
        assoc (KStr c) (columns raw_df) = Some col /\ pd_to_numeric col = Ok col' /\
        assoc (KStr c) (columns df) = Some col' /\
        (forall i v, nth_error col i = Some v -> v = PStr "" \/ v = PNone ->
           nth_error col' i = Some (PFloat nan) \/
           (col' = col /\ exists u fv z, In u col /\ numeric_cell u = Ok (NInt fv z) /\
                                        (INT64_MAX < z)%Z))) /\
     (forall k, (forall c, In c coerced_columns -> k <> KStr c) ->
        k <> KStr "index" -> k <> KStr "level_0" ->
        assoc k (columns df) = assoc k (columns raw_df))) /\
  (forall c col i v e, In c coerced_columns ->
     assoc (KStr c) (columns raw_df) = Some col ->
     nth_error col i = Some v -> numeric_cell v = Err e ->
     exists e', reshape raw_df = Err e') /\
  (forall s e, s <> "" -> floatify s = Err e -> numeric_cell (PStr s) = Err e).
Proof.
  split; [|split; [|exact numeric_cell_unparsable]].
  - intros df Hr. destruct (reshape_inv _ _ Hr) as (Hn & Hc & Ho).
    split; [exact Hn|split; [|exact Ho]].
    intros c Hin. destruct (Hc c Hin) as (col & col' & H1 & H2 & H3).
    exists col, col'. repeat split; try assumption.
    intros i v Hi Hv. exact (pd_to_numeric_blank col col' i v H2 Hi Hv).
  - intros c col i v e Hin Hcol Hi He.
    destruct (reshape raw_df) as [df|e'] eqn:Hr; [|now exists e'].
    exfalso. destruct (reshape_inv _ _ Hr) as (_ & Hc & _).
    destruct (Hc c Hin) as (col0 & col' & H1 & H2 & _).
    rewrite Hcol in H1; inversion H1; subst col0.
    destruct (pd_to_numeric_err col i v e Hi He) as [e'' E].
    rewrite E in H2. discriminate.
Qed.

Lemma C6_witness :
  exists e, reshape (match pd_DataFrame (PList [market "0.05" "0.03" "x" "100" "0.02"]) with
                     | Ok t => t | Err _ => mkTable 0 [] end) = Err e.
Proof.
  destruct (numeric_cell (PStr "x")) as [w|e] eqn:E; [vm_compute in E; discriminate|].
  apply (proj1 (proj2 (C6_reshape_coercion _)) "totalBorrows" [PStr "x"] 0 (PStr "x") e).
  - simpl; tauto.
  - vm_compute; reflexivity.
  - reflexivity.
  - exact E.
Defined.

(** C7 (code bug): the dashboard is never reached: main.py raises for
    every outcome of the request before line 132, [KeyError('N')] at
    line 131 whenever the data loads, so no chart is drawn and no row is
    appended. *)
Theorem C7_dashboard_never_reached :
  (forall h, exists e, main_result h = Err e) /\
  (forall h df, load_df h = Ok df -> main_result h = Err (KeyError (KStr "N"))).
Proof. split; [exact main_result_fails|exact main_result_after_load]. Qed.

Lemma C7_witness :
  main_result (markets_response ex_markets) = Err (KeyError (KStr "N")).
Proof.
  exact (proj2 C7_dashboard_never_reached (markets_response ex_markets) ex_df
           ltac:(vm_compute; reflexivity)).
Defined.




(** C9: for two previous states with the same timestep, the policy
    [p_rates] gives the same result, the four update functions give the
    same updates, and the partial state update gives the same four
    variables: none of them reads the previous values of the four
    rates. *)
Theorem C9_update_ignores_previous_rates P sub sH1 sH2 s1 s2 t r :
  timestep s1 = timestep s2 ->
  p_rates P sub sH1 s1 = p_rates P sub sH2 s2 /\
  (forall pi,
     s_lender_APY P sub sH1 s1 pi = s_lender_APY P sub sH2 s2 pi /\
     s_borrower_APY P sub sH1 s1 pi = s_borrower_APY P sub sH2 s2 pi /\
     s_utilization_rate P sub sH1 s1 pi = s_utilization_rate P sub sH2 s2 pi /\
     s_exchange_rate P sub sH1 s1 pi = s_exchange_rate P sub sH2 s2 pi) /\
  res_map rates (partial_state_update P sub sH1 s1 t r) =
  res_map rates (partial_state_update P sub sH2 s2 t r).
Proof.
  intro Ht.
  assert (Hp : forall sH sH' a b, timestep a = timestep b ->
                 p_rates P sub sH a = p_rates P sub sH' b)
    by (intros sH sH' a b Hab; unfold p_rates; now rewrite Hab).
  split; [now apply Hp|split; [intro pi; repeat split; reflexivity|]].
  unfold partial_state_update.
  rewrite (Hp sH1 sH2 (with_position s1 0 (timestep s1) (run s1))
              (with_position s2 0 (timestep s2) (run s2)))
    by (cbn [with_position timestep]; exact Ht).
  destruct (p_rates P sub sH2 _) as [pi|e]; cbn [bind res_map]; [|reflexivity].
  unfold s_lender_APY, s_borrower_APY, s_utilization_rate, s_exchange_rate.
  destruct (getitem pi (KStr "lender_APY")); cbn [bind res_map]; [|reflexivity].
  destruct (getitem pi (KStr "borrower_rate")); cbn [bind res_map]; [|reflexivity].
  destruct (getitem pi (KStr "utilization_rate")); cbn [bind res_map]; [|reflexivity].
  destruct (getitem pi (KStr "exchange_rate")); cbn [bind res_map]; reflexivity.
Qed.

Lemma C9_witness :
  p_rates ex_params 1 [] state0 =
  p_rates ex_params 1 [] (mkState (PFloat 7) (PFloat 8) (PInt 9) (PStr "x") 0 0 1 0 0).
Proof.
  exact (proj1 (C9_update_ignores_previous_rates ex_params 1 [] [] state0
           (mkState (PFloat 7) (PFloat 8) (PInt 9) (PStr "x") 0 0 1 0 0) 1 1 eq_refl)).
Defined.




(* ------------------------------------------------------------------ *)
(** ** Further properties of the code *)


(** After a successful reshape, the frame keeps its row count, and every
    column still has one cell per row when the input's columns did; when
    the input has no column [index], the new first column [index] holds
    the row labels 0, 1, ..., n - 1. *)
Theorem reshape_shape raw_df df :
  reshape raw_df = Ok df ->
  nrows df = nrows raw_df /\
  (Forall (fun kc => List.length (snd kc) = nrows raw_df) (columns raw_df) ->
   Forall (fun kc => List.length (snd kc) = nrows raw_df) (columns df)) /\
  (assoc (KStr "index") (columns raw_df) = None ->
   columns df = (KStr "index", map (fun i => PInt (Z.of_nat i)) (seq 0 (nrows raw_df)))
                :: tl (columns df)).
Proof.
  rewrite reshape_as_assign_all; intro H.
  destruct (assign_all coerced_columns raw_df) as [d5|] eqn:E5; cbn [bind] in H; [|discriminate].
  destruct (assign_all_inv _ coerced_columns_NoDup _ _ E5) as (Hrows & _ & Hother).
  assert (Hidx : assoc (KStr "index") (columns d5) = assoc (KStr "index") (columns raw_df)).
  { apply Hother. intros c Hc Heq; inversion Heq; subst c.
    unfold coerced_columns in Hc; simpl in Hc; intuition discriminate. }
  unfold df_reset_index in H.
  split; [|split].
  - destruct (negb _); [inversion H; subst; exact Hrows|].
    destruct (negb _); [inversion H; subst; exact Hrows|discriminate].
  - intro Hlen. pose proof (assign_all_lengths _ _ _ E5) as Hl5.
    specialize (Hl5 Hlen).
    destruct (negb _); [inversion H; subst|destruct (negb _); [inversion H; subst|discriminate]];
      cbn [columns]; constructor; auto; cbn [snd]; rewrite length_map, length_seq; auto.
  - intro Hnone. rewrite Hidx, Hnone in H. cbn [negb] in H. inversion H; subst.
    cbn [columns tl]. now rewrite Hrows.
Qed.

Lemma reshape_shape_witness :
  reshape ex_raw_df = Ok ex_df /\
  assoc (KStr "index") (columns ex_df) = Some [PInt 0; PInt 1].
Proof.
  assert (H : reshape ex_raw_df = Ok ex_df) by (vm_compute; reflexivity).
  split; [exact H|].
  destruct (reshape_shape _ _ H) as (_ & _ & Hi).
  rewrite (Hi ltac:(vm_compute; reflexivity)). vm_compute. reflexivity.
Defined.

(** The reshape succeeds whenever the five columns exist and each of
    their cells is something [pd.to_numeric] accepts, and the index
    column can be inserted (the input does not already have both [index]
    and [level_0]). *)
Theorem reshape_succeeds raw_df :
  (forall c, In c coerced_columns -> exists col,
     assoc (KStr c) (columns raw_df) = Some col /\
     Forall (fun v => exists w, numeric_cell v = Ok w) col) ->
  assoc (KStr "index") (columns raw_df) = None \/
  assoc (KStr "level_0") (columns raw_df) = None ->
  exists df, reshape raw_df = Ok df.
Proof. exact (reshape_ok raw_df). Qed.

Lemma reshape_succeeds_witness : exists df, reshape ex_raw_df = Ok df.
Proof.
  apply reshape_succeeds.
  - intros c Hc. unfold coerced_columns in Hc.
    repeat (destruct Hc as [<-|Hc]; [eexists; split; [vm_compute; reflexivity|];
                                     repeat constructor; eexists; vm_compute; reflexivity|]).
    destruct Hc.
  - left; vm_compute; reflexivity.
Defined.

(** A non-empty list of market objects gives a frame with one row per
    market and the five columns in the order of the query's fields, each
    holding the markets' strings in order. *)
Theorem pd_DataFrame_markets ms :
  ms <> [] ->
  pd_DataFrame (PList (map market_of ms)) =
  Ok (mkTable (List.length ms)
        [(KStr "borrowRate", map (fun m => PStr (f_borrowRate m)) ms);
         (KStr "supplyRate", map (fun m => PStr (f_supplyRate m)) ms);
         (KStr "totalBorrows", map (fun m => PStr (f_totalBorrows m)) ms);
         (KStr "totalSupply", map (fun m => PStr (f_totalSupply m)) ms);
         (KStr "exchangeRate", map (fun m => PStr (f_exchangeRate m)) ms)]).
Proof. exact (pd_DataFrame_markets_table ms). Qed.

Lemma pd_DataFrame_markets_witness :
  pd_DataFrame (PList (map market_of [mkMarket "0.05" "0.03" "50" "100" "0.02"])) =
  Ok (mkTable 1 [(KStr "borrowRate", [PStr "0.05"]); (KStr "supplyRate", [PStr "0.03"]);
                 (KStr "totalBorrows", [PStr "50"]); (KStr "totalSupply", [PStr "100"]);
                 (KStr "exchangeRate", [PStr "0.02"])]).
Proof. apply (pd_DataFrame_markets [mkMarket "0.05" "0.03" "50" "100" "0.02"]). discriminate. Defined.

(** End to end: when the response lists at least one market and every
    field of every market is a string [pd.to_numeric] accepts, the data
    loads and main.py raises [KeyError('N')] at line 131. *)
Theorem main_result_markets ms :
  ms <> [] ->
  (forall m c, In m ms -> In c (fields_of m) -> exists w, numeric_cell (PStr c) = Ok w) ->
  main_result (markets_response (map market_of ms)) = Err (KeyError (KStr "N")).
Proof.
  intros Hne Hok.
  assert (Hcol : forall f, (forall m, In m ms -> In (f m) (fields_of m)) ->
            Forall (fun v => exists w, numeric_cell v = Ok w) (map (fun m => PStr (f m)) ms)).
  { intros f Hf. apply Forall_map, Forall_forall. intros m Hm. exact (Hok m (f m) Hm (Hf m Hm)). }
  destruct (reshape_ok (mkTable (List.length ms)
        [(KStr "borrowRate", map (fun m => PStr (f_borrowRate m)) ms);
         (KStr "supplyRate", map (fun m => PStr (f_supplyRate m)) ms);
         (KStr "totalBorrows", map (fun m => PStr (f_totalBorrows m)) ms);
         (KStr "totalSupply", map (fun m => PStr (f_totalSupply m)) ms);
         (KStr "exchangeRate", map (fun m => PStr (f_exchangeRate m)) ms)]))
    as [df Hdf].
  - intros c Hc. unfold coerced_columns in Hc.
    repeat (destruct Hc as [<-|Hc];
            [eexists; split; [reflexivity|apply Hcol; intros m _; unfold fields_of; simpl; tauto]|]).
    destruct Hc.
  - left; reflexivity.
  - apply (main_result_after_load _ df).
    rewrite load_df_markets.
    rewrite (pd_DataFrame_markets_table ms Hne). cbn [bind]. exact Hdf.
Qed.

Lemma main_result_markets_witness :
  main_result (markets_response (map market_of [mkMarket "0.05" "0.03" "50" "100" "0.02"]))
  = Err (KeyError (KStr "N")).
Proof.
  apply main_result_markets; [discriminate|].
  intros m c Hm Hc. destruct Hm as [<-|[]].
  unfold fields_of in Hc; cbn [f_borrowRate f_supplyRate f_totalBorrows f_totalSupply
                                f_exchangeRate] in Hc.
  repeat (destruct Hc as [<-|Hc]; [eexists; vm_compute; reflexivity|]). destruct Hc.
Defined.

(** The HTTP status is never checked, and a JSON body without the
    expected shape raises: no [data] gives [KeyError('data')], a [null]
    [data] a [TypeError], no [markets] [KeyError('markets')], and a
    [null] [markets] an empty frame, whose missing column makes the
    reshape raise [AttributeError]. *)
Theorem main_result_error_bodies s kv :
  (forall b, main_result (Response s b) = main_result (Response 200 b)) /\
  (assoc (KStr "data") kv = None ->
   main_result (Response s (JsonText (PDict kv))) = Err (KeyError (KStr "data"))) /\
  (assoc (KStr "data") kv = Some PNone ->
   main_result (Response s (JsonText (PDict kv))) =
   Err (TypeError "object is not subscriptable")) /\
  (forall kv', assoc (KStr "data") kv = Some (PDict kv') ->
   assoc (KStr "markets") kv' = None ->
   main_result (Response s (JsonText (PDict kv))) = Err (KeyError (KStr "markets"))) /\
  (forall kv', assoc (KStr "data") kv = Some (PDict kv') ->
   assoc (KStr "markets") kv' = Some PNone ->
   main_result (Response s (JsonText (PDict kv))) = Err (AttributeError "totalBorrows")).
Proof.
  split; [reflexivity|].
  repeat split; intros; unfold main_result, load_df; cbn [req_post content json_loads bind];
    unfold getitem at 1;
    repeat match goal with H : assoc _ _ = _ |- _ => rewrite H; clear H; cbn [bind] end;
    try reflexivity.
  all: unfold getitem; repeat match goal with H : assoc _ _ = _ |- _ => rewrite H end;
    reflexivity.
Qed.

Lemma main_result_error_bodies_witness :
  main_result (Response 400 (JsonText (PDict [(KStr "errors", PList [])]))) =
  Err (KeyError (KStr "data")).
Proof.
  exact (proj1 (proj2 (main_result_error_bodies 400 [(KStr "errors", PList [])])) eq_refl).
Defined.
